(** * The Pexels search proxy (main.py)

    A shallow embedding of [main.py]: the start-up check on the
    [PEXELS_API_KEY] environment variable and the Flask view
    [search_pexels_images] behind [/api/search].

    The view needs three libraries, Werkzeug ([request.args]), requests
    ([requests.get], [Response], the exception classes) and Flask (how a
    view's return value becomes the HTTP response).  Their behaviour is
    written out in the modules [Python], [Werkzeug], [Requests] and
    [Flask] below, from the current releases of these libraries
    (requests 2.28 and later, where [JSONDecodeError] derives from
    [RequestException] and [InvalidHeader] quotes the offending value;
    Flask 2.2 and later, where a view may return a list).  A string
    holds the UTF-8 bytes of the Python text it stands for.  Bodies are compared as decoded JSON values: [jsonify]
    serialises a value again, so the bytes on the wire may differ in
    spacing and key order from what the upstream sent. *)

From Stdlib Require Import String Ascii List ZArith Bool Lia.
Import ListNotations.

#[local] Open Scope string_scope.
#[local] Open Scope Z_scope.

(* ================================================================== *)
(** ** Python values and exceptions *)
(* ================================================================== *)

Module Python.

#[local] Set Warnings "-register-all".

(** What [json.loads] produces: [dict], [list], [str], [int], [float],
    [bool] and [None].  A float keeps its literal; nothing in the program
    computes with it. *)
Inductive JSON : Type :=
| JNull
| JBool (b : bool)
| JInt (n : Z)
| JFloat (literal : string)
| JStr (s : string)
| JArr (items : list JSON)
| JObj (members : list (string * JSON)).

(** The exception classes the program can meet. *)
Inductive exn_class : Type :=
| ValueError
| TypeError
| UnboundLocalError
| RequestException
| HTTPError
| ConnectionError
| SSLError
| Timeout
| ConnectTimeout
| ReadTimeout
| TooManyRedirects
| InvalidJSONError
| JSONDecodeError
| InvalidHeader
| UnicodeEncodeError
| RecursionError
| OverflowError.

Definition exn_class_eqb (a b : exn_class) : bool :=
  match a, b with
  | ValueError, ValueError | TypeError, TypeError
  | UnboundLocalError, UnboundLocalError
  | RequestException, RequestException | HTTPError, HTTPError
  | ConnectionError, ConnectionError | SSLError, SSLError
  | Timeout, Timeout | ConnectTimeout, ConnectTimeout
  | ReadTimeout, ReadTimeout | TooManyRedirects, TooManyRedirects
  | InvalidJSONError, InvalidJSONError
  | JSONDecodeError, JSONDecodeError
  | InvalidHeader, InvalidHeader
  | UnicodeEncodeError, UnicodeEncodeError
  | RecursionError, RecursionError
  | OverflowError, OverflowError => true
  | _, _ => false
  end.

(** The class itself followed by its ancestors among the classes above
    (requests/exceptions.py). *)
Definition mro (c : exn_class) : list exn_class :=
  match c with
  | ValueError => [ValueError]
  | TypeError => [TypeError]
  | UnboundLocalError => [UnboundLocalError]
  | RequestException => [RequestException]
  | HTTPError => [HTTPError; RequestException]
  | ConnectionError => [ConnectionError; RequestException]
  | SSLError => [SSLError; ConnectionError; RequestException]
  | Timeout => [Timeout; RequestException]
  | ConnectTimeout =>
      [ConnectTimeout; ConnectionError; Timeout; RequestException]
  | ReadTimeout => [ReadTimeout; Timeout; RequestException]
  | TooManyRedirects => [TooManyRedirects; RequestException]
  | InvalidJSONError => [InvalidJSONError; RequestException]
  | JSONDecodeError =>
      [JSONDecodeError; InvalidJSONError; RequestException; ValueError]
  | InvalidHeader => [InvalidHeader; RequestException; ValueError]
  | UnicodeEncodeError => [UnicodeEncodeError; ValueError]
  | RecursionError => [RecursionError]
  | OverflowError => [OverflowError]
  end.

(** A raised exception: its class and [str(e)]. *)
Record exn : Type := Raise { class_of : exn_class; str : string }.

(** [isinstance(e, c)], the test an [except c] clause makes. *)
Definition isinstance (e : exn) (c : exn_class) : bool :=
  existsb (exn_class_eqb c) (mro (class_of e)).

(** *** [int(s)] on ASCII text

    Optional surrounding white space, an optional sign, then decimal
    digits, where single underscores may separate digits; more than 4300
    digits are refused.  [None] stands for [ValueError].  Digits outside
    ASCII are not covered; the view is parametric in the conversion and
    this one serves the examples. *)

Definition is_space (c : ascii) : bool :=
  let n := nat_of_ascii c in
  (((9 <=? n) && (n <=? 13)) || (n =? 32))%nat.

Definition digit_of (c : ascii) : option Z :=
  let n := nat_of_ascii c in
  if ((48 <=? n) && (n <=? 57))%nat then Some (Z.of_nat (n - 48)) else None.

Definition is_digit (c : ascii) : bool :=
  match digit_of c with
  | Some _ => true
  | None => false
  end.

Fixpoint lstrip (l : list ascii) : list ascii :=
  match l with
  | c :: rest => if is_space c then lstrip rest else l
  | [] => []
  end.

Definition strip (l : list ascii) : list ascii :=
  rev (lstrip (rev (lstrip l))).

(** [after_digit] tells whether the previous character was a digit: an
    underscore is accepted only there, and the text cannot end on one. *)
Fixpoint digits_value (acc : Z) (after_digit : bool) (l : list ascii)
  : option Z :=
  match l with
  | [] => if after_digit then Some acc else None
  | c :: rest =>
      match digit_of c with
      | Some d => digits_value (10 * acc + d) true rest
      | None =>
          if Ascii.eqb c "_" && after_digit
          then digits_value acc false rest
          else None
      end
  end.

Definition max_str_digits : nat := 4300.

Definition unsigned_value (ds : list ascii) : option Z :=
  if (max_str_digits <? length (filter is_digit ds))%nat then None
  else digits_value 0 false ds.

Definition ascii_int (s : string) : option Z :=
  match strip (list_ascii_of_string s) with
  | "-"%char :: ds => option_map Z.opp (unsigned_value ds)
  | "+"%char :: ds => unsigned_value ds
  | ds => unsigned_value ds
  end.

(** *** [repr(s)]

    The text between quotes, with backslash escapes: single quotes are
    used unless the text holds one and no double quote.  Bytes from 128
    on are copied, as Python copies the printable characters they
    encode; the characters outside ASCII that it would escape are not
    covered. *)

Definition hex_digit (n : nat) : ascii :=
  ascii_of_nat (if (n <? 10)%nat then 48 + n else 87 + n).

Definition repr_char (quote c : ascii) : string :=
  let n := nat_of_ascii c in
  if Ascii.eqb c quote || Ascii.eqb c "\" then String "\" (String c EmptyString)
  else if (n =? 10)%nat then "\n"
  else if (n =? 13)%nat then "\r"
  else if (n =? 9)%nat then "\t"
  else if ((n <? 32) || (n =? 127))%nat then
    String "\" (String "x"
      (String (hex_digit (n / 16)) (String (hex_digit (n mod 16)) EmptyString)))
  else String c EmptyString.

Definition repr (s : string) : string :=
  let l := list_ascii_of_string s in
  let quote :=
    if existsb (Ascii.eqb "'") l && negb (existsb (Ascii.eqb (ascii_of_nat 34)) l)
    then ascii_of_nat 34 else "'"%char in
  String quote
    (String.concat EmptyString (map (repr_char quote) l)
       ++ String quote EmptyString).

End Python.

(* ================================================================== *)
(** ** Werkzeug: the query string as a [MultiDict] *)
(* ================================================================== *)

Module Werkzeug.

(** [request.args]: the pairs of the query string in their order; a key
    may occur several times. *)
Definition MultiDict : Type := list (string * string).

(** [d.get(key)]: the first value of the key, [None] without one. *)
Fixpoint get (d : MultiDict) (key : string) : option string :=
  match d with
  | [] => None
  | (k, v) :: rest => if String.eqb k key then Some v else get rest key
  end.

(** [d.get(key, default, type=conv)]: the default when the key is missing
    and when the conversion raises [ValueError]. *)
Definition get_typed {A : Type} (d : MultiDict) (key : string)
    (default : A) (conv : string -> option A) : A :=
  match get d key with
  | None => default
  | Some rv =>
      match conv rv with
      | Some x => x
      | None => default
      end
  end.

End Werkzeug.

(* ================================================================== *)
(** ** HTTP: the outbound call and its answer *)
(* ================================================================== *)

Module Http.
Import Python.

Inductive Method : Type := GET | POST.

(** A value of the [params] dictionary. *)
Inductive ParamValue : Type :=
| PStr (s : string)
| PInt (n : Z).

(** One call of [requests.request]: what is sent and the time limit in
    seconds. *)
Record Call : Type := {
  method : Method;
  url : string;
  headers : list (string * string);
  params : list (string * ParamValue);
  timeout : Z
}.

(** The result of [Response.json()]: the decoded value, the message of
    the [JSONDecodeError] it raises, or the message of the
    [RecursionError] the decoder ends in on a body nested too deep. *)
Inductive Decoded : Type :=
| Json (v : JSON)
| NotJson (msg : string)
| TooDeep (msg : string).

(** What the view reads of a [Response]: [status_code], [text] and
    [json()]. *)
Record Response : Type := {
  status_code : Z;
  text : string;
  json : Decoded
}.

(** Ways in which the exchange does not complete, with the exception
    class requests raises for each.  [HeaderRejected] is requests' own
    refusal of a header while it prepares the request. *)
Inductive Failure : Type :=
| NameResolutionFailed
| ConnectionRefused
| TLSHandshakeFailed
| ConnectTimedOut
| ReadTimedOut
| RedirectLimitExceeded
| HeaderRejected.

Definition failure_class (f : Failure) : exn_class :=
  match f with
  | NameResolutionFailed => ConnectionError
  | ConnectionRefused => ConnectionError
  | TLSHandshakeFailed => SSLError
  | ConnectTimedOut => ConnectTimeout
  | ReadTimedOut => ReadTimeout
  | RedirectLimitExceeded => TooManyRedirects
  | HeaderRejected => InvalidHeader
  end.

(** Ways in which [requests.get] ends in an exception that is none of
    requests' own: [http.client] cannot encode a header value as
    Latin-1, or refuses it for a line break. *)
Inductive Fault : Type :=
| HeaderNotLatin1
| HeaderIllegal.

Definition fault_class (f : Fault) : exn_class :=
  match f with
  | HeaderNotLatin1 => UnicodeEncodeError
  | HeaderIllegal => ValueError
  end.

(** What [requests.get] does with a call: a response comes back,
    whatever its status; or the exchange fails with a description
    ([str] of the exception), an exception of requests; or it ends in an
    exception from below requests. *)
Inductive Outcome : Type :=
| Completed (r : Response)
| Failed (f : Failure) (description : string)
| Faulted (f : Fault) (description : string).

Definition Upstream : Type := Call -> Outcome.

End Http.

(* ================================================================== *)
(** ** The view's frame and its effects *)
(* ================================================================== *)

Module Effects.
Import Python Http.

(** The state a run of the view threads: the outbound calls made so far,
    oldest first, and the local variable [response], unbound at entry. *)
Record Frame : Type := {
  calls : list Call;
  response : option Response
}.

Definition entry : Frame := {| calls := []; response := None |}.

(** A statement either raises or yields a value; the frame survives in
    both cases, as Python keeps assignments made before a [raise]. *)
Definition Py (A : Type) : Type := Frame -> (exn + A) * Frame.

Definition ret {A : Type} (a : A) : Py A := fun fr => (inr a, fr).

Definition bind {A B : Type} (m : Py A) (k : A -> Py B) : Py B :=
  fun fr =>
    match m fr with
    | (inl e, fr') => (inl e, fr')
    | (inr a, fr') => k a fr'
    end.

Definition raise {A : Type} (e : exn) : Py A := fun fr => (inl e, fr).

(** [try: body except ...]: [handlers e] is the first clause matching
    [e], [None] when no clause does and [e] propagates. *)
Definition try_except {A : Type} (body : Py A)
    (handlers : exn -> option (Py A)) : Py A :=
  fun fr =>
    match body fr with
    | (inl e, fr') =>
        match handlers e with
        | Some h => h fr'
        | None => (inl e, fr')
        end
    | (inr a, fr') => (inr a, fr')
    end.

(** [response = r]. *)
Definition store_response (r : Response) : Py unit :=
  fun fr => (inr tt, {| calls := calls fr; response := Some r |}).

(** Reading the local [response]; Python raises [UnboundLocalError] when
    it was never assigned. *)
Definition load_response : Py Response :=
  fun fr =>
    match response fr with
    | Some r => (inr r, fr)
    | None =>
        (inl (Raise UnboundLocalError
                "cannot access local variable 'response'"), fr)
    end.

End Effects.

Declare Scope py_scope.
Delimit Scope py_scope with py.
Notation "x <- m ;; k" := (Effects.bind m (fun x => k))
  (at level 61, m at next level, right associativity) : py_scope.
Notation "m ;; k" := (Effects.bind m (fun _ => k))
  (at level 61, right associativity) : py_scope.

(* ================================================================== *)
(** ** requests: [get], [raise_for_status], [json] *)
(* ================================================================== *)

Module Requests.
Import Python Http Effects.
#[local] Open Scope py_scope.

(** [requests.get(url, headers=..., params=..., timeout=...)]: one call,
    recorded in the frame; a failed exchange raises the exception of its
    class with the description as message. *)
Definition get (upstream : Upstream) (url : string)
    (headers : list (string * string))
    (params : list (string * ParamValue)) (timeout : Z) : Py Response :=
  fun fr =>
    let c := {| method := GET; url := url; headers := headers;
                params := params; timeout := timeout |} in
    let fr' := {| calls := calls fr ++ [c]; response := response fr |} in
    match upstream c with
    | Completed r => (inr r, fr')
    | Failed f description =>
        (inl (Raise (failure_class f) description), fr')
    | Faulted f description =>
        (inl (Raise (fault_class f) description), fr')
    end.

(** [Response.raise_for_status()]: [HTTPError] for a status from 400 to
    599, nothing otherwise. *)
Definition raise_for_status (r : Response) : Py unit :=
  if (400 <=? status_code r) && (status_code r <? 500)
  then raise (Raise HTTPError "Client Error")
  else if (500 <=? status_code r) && (status_code r <? 600)
  then raise (Raise HTTPError "Server Error")
  else ret tt.

(** [Response.json()]. *)
Definition json_of (r : Response) : Py JSON :=
  match json r with
  | Json v => ret v
  | NotJson msg => raise (Raise JSONDecodeError msg)
  | TooDeep msg => raise (Raise RecursionError msg)
  end.

(** *** What the library decides from the call alone

    [check_header_validity] (requests/utils.py) accepts a header value
    that is empty, or that starts with a character that is no white
    space and has no line break before its end, a last line feed apart
    (the pattern [^\S[^\r\n]*$|^$]).  White space is what the class
    [\s] matches in a text pattern: the ASCII characters 9 to 13 and 28
    to 32, and the characters of [utf8_spaces]. *)

Definition is_re_space (c : ascii) : bool :=
  let n := nat_of_ascii c in
  (((9 <=? n) && (n <=? 13)) || ((28 <=? n) && (n <=? 32)))%nat.

(** U+0085, U+00A0, U+1680, U+2000 to U+200A, U+2028, U+2029, U+202F,
    U+205F and U+3000, as UTF-8. *)
Definition utf8_spaces : list (list nat) :=
  [ [194; 133]; [194; 160]; [225; 154; 128];
    [226; 128; 128]; [226; 128; 129]; [226; 128; 130]; [226; 128; 131];
    [226; 128; 132]; [226; 128; 133]; [226; 128; 134]; [226; 128; 135];
    [226; 128; 136]; [226; 128; 137]; [226; 128; 138];
    [226; 128; 168]; [226; 128; 169]; [226; 128; 175];
    [226; 129; 159]; [227; 128; 128] ]%nat.

Fixpoint has_prefix (p : list nat) (l : list ascii) : bool :=
  match p, l with
  | [], _ => true
  | n :: p', c :: l' => (nat_of_ascii c =? n)%nat && has_prefix p' l'
  | _ :: _, [] => false
  end.

Definition starts_with_space (l : list ascii) : bool :=
  match l with
  | [] => false
  | c :: _ => is_re_space c || existsb (fun p => has_prefix p l) utf8_spaces
  end.

Definition is_line_break (c : ascii) : bool :=
  let n := nat_of_ascii c in ((n =? 10) || (n =? 13))%nat.

Fixpoint from_line_break (l : list ascii) : list ascii :=
  match l with
  | [] => []
  | c :: rest => if is_line_break c then l else from_line_break rest
  end.

Definition valid_header_value (v : string) : bool :=
  match list_ascii_of_string v with
  | [] => true
  | c :: rest =>
      negb (starts_with_space (c :: rest)) &&
      match from_line_break rest with
      | [] => true
      | [c'] => (nat_of_ascii c' =? 10)%nat
      | _ => false
      end
  end.

(** [putheader] of [http.client] encodes the value as Latin-1, which
    fails on a character above 255 (in UTF-8, a byte from 196 on), and
    then refuses a line feed or carriage return that no continuation
    follows. *)
Definition latin1 (v : string) : bool :=
  forallb (fun c => (nat_of_ascii c <? 196)%nat) (list_ascii_of_string v).

Fixpoint illegal_line_break (l : list ascii) : bool :=
  match l with
  | [] => false
  | c :: rest =>
      let n := nat_of_ascii c in
      let blank c' :=
        let m := nat_of_ascii c' in ((m =? 32) || (m =? 9))%nat in
      let continued_lf :=
        match rest with c' :: _ => blank c' | [] => false end in
      let continued_cr :=
        match rest with
        | c' :: _ => blank c' || (nat_of_ascii c' =? 10)%nat
        | [] => false
        end in
      ((n =? 10)%nat && negb continued_lf)
      || ((n =? 13)%nat && negb continued_cr)
      || illegal_line_break rest
  end.

Definition putheader_fault (v : string) : option (Fault * string) :=
  if negb (latin1 v) then
    Some (HeaderNotLatin1,
          "'latin-1' codec can't encode characters: ordinal not in range(256)")
  else if illegal_line_break (list_ascii_of_string v) then
    Some (HeaderIllegal, "Invalid header value b" ++ repr v)
  else None.

(** The failures that arise while the connection is set up, before any
    header is written. *)
Definition while_connecting (f : Failure) : bool :=
  match f with
  | NameResolutionFailed | ConnectionRefused
  | TLSHandshakeFailed | ConnectTimedOut => true
  | ReadTimedOut | RedirectLimitExceeded | HeaderRejected => false
  end.

(** [requests.get] over a network: requests refuses an invalid header
    value before anything is sent and says which; over HTTPS the
    connection is then set up, and [http.client] fails on a value it
    cannot write before the request leaves; otherwise the network
    decides. *)
Definition send (network : Upstream) : Upstream :=
  fun c =>
    match find (fun h => negb (valid_header_value (snd h))) (headers c) with
    | Some (_, v) =>
        Failed HeaderRejected
          ("Invalid leading whitespace, reserved character(s), or return character(s) in header value: "
             ++ repr v)
    | None =>
        match
          find (fun h =>
                  match putheader_fault (snd h) with
                  | Some _ => true
                  | None => false
                  end) (headers c)
        with
        | None => network c
        | Some (_, v) =>
            match putheader_fault v with
            | None => network c
            | Some (fault, msg) =>
                match network c with
                | Failed f d =>
                    if while_connecting f then Failed f d
                    else Faulted fault msg
                | Completed _ | Faulted _ _ => Faulted fault msg
                end
            end
        end
    end.

End Requests.

(* ================================================================== *)
(** ** Flask: from the view's return value to the HTTP response *)
(* ================================================================== *)

Module Flask.
Import Python.

(** The two shapes of [return] in the view: a bare Python value, and the
    pair [jsonify(v), status]. *)
Inductive ViewReturn : Type :=
| Value (v : JSON)
| Jsonified (v : JSON) (status : Z).

(** What the caller receives: a JSON document, a [text/html] document,
    or the page Flask answers with status 500 when an exception reached
    it. *)
Inductive ClientResponse : Type :=
| JsonResponse (status : Z) (body : JSON)
| HtmlResponse (status : Z) (body : string)
| InternalServerError (e : exn).

Definition status_of (c : ClientResponse) : Z :=
  match c with
  | JsonResponse s _ => s
  | HtmlResponse s _ => s
  | InternalServerError _ => 500
  end.

(** [Flask.make_response]: a [dict] or a [list] goes through [jsonify]
    with status 200, a [str] becomes an HTML body, and [None], [bool],
    [int] and [float] are refused with [TypeError]. *)
Definition make_response (rv : ViewReturn) : exn + ClientResponse :=
  match rv with
  | Jsonified v status => inr (JsonResponse status v)
  | Value (JObj _ as v) | Value (JArr _ as v) => inr (JsonResponse 200 v)
  | Value (JStr s) => inr (HtmlResponse 200 s)
  | Value JNull | Value (JBool _) | Value (JInt _) | Value (JFloat _) =>
      inl (Raise TypeError
             "The view function did not return a valid response.")
  end.

(** [full_dispatch_request] for a view that ran to [r]: an exception of
    the view or of [make_response] ends in the 500 page. *)
Definition finalize_request (r : exn + ViewReturn) : ClientResponse :=
  match r with
  | inl e => InternalServerError e
  | inr rv =>
      match make_response rv with
      | inl e => InternalServerError e
      | inr c => c
      end
  end.

End Flask.

(* ================================================================== *)
(** ** main.py *)
(* ================================================================== *)

Module Main.
Import Python Http Effects Flask.
#[local] Open Scope py_scope.

(** Pexels API base URL (line 11). *)
Definition PEXELS_API_URL : string := "https://api.pexels.com/v1/search".

(** [os.environ]; [getenv] is [os.getenv] and [os.environ.get]. *)
Definition Environ : Type := list (string * string).

Fixpoint getenv (environ : Environ) (name : string) : option string :=
  match environ with
  | [] => None
  | (k, v) :: rest => if String.eqb k name then Some v else getenv rest name
  end.

(** What running the module does that can be seen from outside, in
    order: the Flask application is created, a route is registered, the
    development server starts listening. *)
Inductive Event : Type :=
| AppCreated (static_folder static_url_path : string)
| RouteAdded (rule endpoint : string)
| Listening (host : string) (port : Z) (debug : bool).

(** How the execution of the module ends: an exception stops the
    process, or the module is loaded with its key. *)
Inductive Startup : Type :=
| Crashed (e : exn) (done : list Event)
| Loaded (key : string) (done : list Event).

(** What had happened when the execution of the module ended. *)
Definition events (s : Startup) : list Event :=
  match s with
  | Crashed _ done => done
  | Loaded _ done => done
  end.

Section Program.

(** Python's [int] on a string; [None] for [ValueError]. *)
Variable int : string -> option Z.

(** The module's top level (lines 11 to 29, the two decorators, lines
    108 to 119).  [is_main] tells whether [__name__] is ['__main__'].
    [app.run] binds the port, which raises [OverflowError] outside
    0..65535; the operating system is taken to grant any other port. *)
Definition main_py (environ : Environ) (is_main : bool) : Startup :=
  match getenv environ "PEXELS_API_KEY" with
  | None | Some EmptyString =>               (* if not PEXELS_API_KEY *)
      Crashed
        (Raise ValueError
           "A PEXELS_API_KEY environment variable is required to run this application.")
        []
  | Some PEXELS_API_KEY =>
      let done := [AppCreated "static" EmptyString;
                   RouteAdded "/api/search" "search_pexels_images";
                   RouteAdded "/" "serve_index"] in
      if is_main then
        let port :=
          match getenv environ "PORT" with
          | None => Some 5000
          | Some p => int p
          end in
        match port with
        | None => Crashed (Raise ValueError "invalid literal for int()") done
        | Some port =>
            if (0 <=? port) && (port <=? 65535) then
              Loaded PEXELS_API_KEY (done ++ [Listening "0.0.0.0" port true])
            else
              Crashed (Raise OverflowError "bind(): port must be 0-65535.")
                done
        end
      else Loaded PEXELS_API_KEY done
  end.

(** The network, and the key the module holds once it is loaded. *)
Variable upstream : Upstream.
Variable PEXELS_API_KEY : string.

(** The view behind [/api/search] (lines 35 to 91). *)
Definition search_pexels_images (args : Werkzeug.MultiDict)
  : Py ViewReturn :=
  (* 1. Get and validate request parameters from the client. *)
  match Werkzeug.get args "query" with
  | None | Some EmptyString =>                       (* if not query *)
      ret (Jsonified
             (JObj [("error", JStr "The 'query' parameter is required.")])
             400)
  | Some query =>
      let per_page := Werkzeug.get_typed args "per_page" 15 int in
      (* 2. Prepare the request to the external Pexels API. *)
      let headers := [("Authorization", PEXELS_API_KEY)] in
      let params := [("query", PStr query); ("per_page", PInt per_page)] in
      try_except
        (* 3. Make the request and handle potential responses. *)
        (r <- Requests.get upstream PEXELS_API_URL headers params 10 ;;
         store_response r ;;
         response <- load_response ;;
         Requests.raise_for_status response ;;
         response <- load_response ;;
         v <- Requests.json_of response ;;
         ret (Value v))
        (fun e =>
           if isinstance e HTTPError then Some
             (error_details <-
                try_except
                  (response <- load_response ;;
                   Requests.json_of response)
                  (fun e' =>
                     if isinstance e' ValueError then Some
                       (response <- load_response ;;
                        ret (JObj
                          [("error", JStr
                             "Received a non-JSON error response from Pexels API.");
                           ("details", JStr (text response))]))
                     else None) ;;
              response <- load_response ;;
              ret (Jsonified error_details (status_code response)))
           else if isinstance e RequestException then Some
             (let req_err := e in
              ret (Jsonified
                     (JObj [("error", JStr
                        ("Could not connect to Pexels API: " ++ str req_err))])
                     503))
           else None)
  end.

(** One request to [/api/search]: the view runs from a fresh frame, Flask
    turns what it returned into the response; the outbound calls made on
    the way are kept beside it. *)
Definition api_search (args : Werkzeug.MultiDict)
  : ClientResponse * list Call :=
  let (r, fr) := search_pexels_images args entry in
  (finalize_request r, calls fr).

End Program.

(** The call of lines 59 to 70 for a given key, query and page size. *)
Definition search_call (key query : string) (per_page : Z) : Call :=
  {| method := GET;
     url := PEXELS_API_URL;
     headers := [("Authorization", key)];
     params := [("query", PStr query); ("per_page", PInt per_page)];
     timeout := 10 |}.

End Main.

(* ================================================================== *)
(** ** Sample requests and upstream answers *)
(* ================================================================== *)

Module Samples.
Import Python Http Flask Main.

Definition dquote : string := String (ascii_of_nat 34) EmptyString.

(** [/api/search?query=cats] *)
Definition cats : Werkzeug.MultiDict := [("query", "cats")].

(** [/api/search?per_page=20], no query. *)
Definition no_query : Werkzeug.MultiDict := [("per_page", "20")].

(** [/api/search?query=cats&per_page=-3] *)
Definition cats_minus_3 : Werkzeug.MultiDict :=
  [("query", "cats"); ("per_page", "-3")].

(** The body [{"photos":[]}] with status 200. *)
Definition no_photos : Response :=
  {| status_code := 200;
     text := "{" ++ dquote ++ "photos" ++ dquote ++ ":[]}";
     json := Json (JObj [("photos", JArr [])]) |}.

(** Status 201 with the JSON document [null]. *)
Definition created_null : Response :=
  {| status_code := 201; text := "null"; json := Json JNull |}.

(** Status 200 with the JSON document [null]. *)
Definition ok_null : Response :=
  {| status_code := 200; text := "null"; json := Json JNull |}.

(** Status 429 with the body [{"error":"rate limited"}]. *)
Definition rate_limited : Response :=
  {| status_code := 429;
     text := "{" ++ dquote ++ "error" ++ dquote ++ ":"
                 ++ dquote ++ "rate limited" ++ dquote ++ "}";
     json := Json (JObj [("error", JStr "rate limited")]) |}.

(** Status 500 with the body [oops], which is not JSON. *)
Definition oops : Response :=
  {| status_code := 500;
     text := "oops";
     json := NotJson "Expecting value: line 1 column 1 (char 0)" |}.

(** Status 304 without a body. *)
Definition not_modified : Response :=
  {| status_code := 304;
     text := EmptyString;
     json := NotJson "Expecting value: line 1 column 1 (char 0)" |}.

(** Status 302 with a JSON object as body. *)
Definition found : Response :=
  {| status_code := 302;
     text := "{" ++ dquote ++ "photos" ++ dquote ++ ":[]}";
     json := Json (JObj [("photos", JArr [])]) |}.

(** A network that answers every call with [r]. *)
Definition answering (r : Response) : Upstream := fun _ => Completed r.

(** A network on which every call runs into the time limit. *)
Definition timing_out : Upstream :=
  fun _ => Failed ReadTimedOut "Read timed out. (read timeout=10)".

(** Status 200 with an HTML page as body. *)
Definition html_page : Response :=
  {| status_code := 200;
     text := "<html>maintenance</html>";
     json := NotJson "Expecting value: line 1 column 1 (char 0)" |}.

(** The status 600, outside the registered classes, with a JSON object. *)
Definition status_600 : Response :=
  {| status_code := 600;
     text := "{" ++ dquote ++ "photos" ++ dquote ++ ":[]}";
     json := Json (JObj [("photos", JArr [])]) |}.

(** [/api/search?query=cats&per_page=5] *)
Definition cats_5 : Werkzeug.MultiDict :=
  [("query", "cats"); ("per_page", "5")].

(** [&page=2&query=dogs&per_page=80], to follow another query string. *)
Definition more_params : Werkzeug.MultiDict :=
  [("page", "2"); ("query", "dogs"); ("per_page", "80")].

(** An environment with the key and a port. *)
Definition env_8080 : Environ :=
  [("PEXELS_API_KEY", "secret"); ("PORT", "8080")].

(** [depth] opening brackets followed by as many closing ones: arrays
    nested [depth] deep, which is valid JSON. *)
Definition nested_arrays (depth : N) : string :=
  N.iter depth (String "[") (N.iter depth (String "]") EmptyString).

(** Status 502 with arrays nested 100000 deep as body: Python's decoder
    gives up on it with [RecursionError]. *)
Definition deeply_nested : Response :=
  {| status_code := 502;
     text := nested_arrays 100000;
     json := TooDeep "maximum recursion depth exceeded while decoding a JSON array from a unicode string" |}.

(** Status 500 with the body [NaN], which is not JSON but which Python's
    decoder reads as a float. *)
Definition not_a_number : Response :=
  {| status_code := 500; text := "NaN"; json := Json (JFloat "NaN") |}.

(** A key outside Latin-1: the euro sign, then [key]. *)
Definition euro_key : string :=
  String (ascii_of_nat 226)
    (String (ascii_of_nat 130) (String (ascii_of_nat 172) "key")).

(** An environment whose key starts with a space. *)
Definition env_spaced_key : Environ := [("PEXELS_API_KEY", " secret")].

(** An environment with a key and a port that is not an integer. *)
Definition env_port_http : Environ :=
  [("PEXELS_API_KEY", "secret"); ("PORT", "http")].


End Samples.

(* ================================================================== *)
(** ** The libraries' calls *)
(* ================================================================== *)

Import Python Http Effects Flask Main.

Section StatusCheck.

Variable r : Response.

(** [raise_for_status] raises [HTTPError] for a status from 400 to 599,
    and leaves the frame as it was. *)
Lemma raise_for_status_raises (fr : Frame) :
  400 <= status_code r < 600 ->
  exists msg,
    Requests.raise_for_status r fr = (inl (Raise HTTPError msg), fr).
Proof.
  intros [Hlo Hhi]. unfold Requests.raise_for_status.
  destruct (Z.leb_spec 400 (status_code r)) as [_|]; [|lia].
  destruct (Z.ltb_spec (status_code r) 500) as [|H500]; cbn [andb].
  - now exists "Client Error".
  - destruct (Z.leb_spec 500 (status_code r)) as [_|]; [|lia].
    destruct (Z.ltb_spec (status_code r) 600) as [_|]; [|lia].
    now exists "Server Error".
Qed.

(** Below 400 and from 600 on it returns. *)
Lemma raise_for_status_returns (fr : Frame) :
  status_code r < 400 \/ 600 <= status_code r ->
  Requests.raise_for_status r fr = (inr tt, fr).
Proof.
  intros H. unfold Requests.raise_for_status.
  destruct (Z.leb_spec 400 (status_code r));
    destruct (Z.ltb_spec (status_code r) 500);
    destruct (Z.leb_spec 500 (status_code r));
    destruct (Z.ltb_spec (status_code r) 600);
    cbn [andb]; try reflexivity; lia.
Qed.

End StatusCheck.

(** A failed exchange is never an [HTTPError] and always a
    [RequestException]: the second [except] clause takes it. *)
Lemma failure_goes_to_second_clause (f : Failure) (d : string) :
  isinstance (Raise (failure_class f) d) HTTPError = false /\
  isinstance (Raise (failure_class f) d) RequestException = true.
Proof. destruct f; split; reflexivity. Qed.

(** An exception from below requests passes both clauses. *)
Lemma fault_passes_both_clauses (f : Fault) (d : string) :
  isinstance (Raise (fault_class f) d) HTTPError = false /\
  isinstance (Raise (fault_class f) d) RequestException = false.
Proof. destruct f; split; reflexivity. Qed.

(* ================================================================== *)
(** ** The view, outcome by outcome *)
(* ================================================================== *)

Section View.

Variable int : string -> option Z.
Variable upstream : Upstream.
Variable key : string.
Variable args : Werkzeug.MultiDict.

(** Without a query the view answers at once and the frame is
    untouched. *)
Lemma view_without_query :
  Werkzeug.get args "query" = None \/
  Werkzeug.get args "query" = Some EmptyString ->
  search_pexels_images int upstream key args entry =
    (inr (Jsonified
            (JObj [("error", JStr "The 'query' parameter is required.")])
            400),
     entry).
Proof.
  intros [H|H]; unfold search_pexels_images; rewrite H; reflexivity.
Qed.

Variable query : string.
Hypothesis query_given : Werkzeug.get args "query" = Some query.
Hypothesis query_not_empty : query <> EmptyString.

#[local] Notation "'the_call'" :=
  (search_call key query (Werkzeug.get_typed args "per_page" 15 int)).

(** A query that passed [if not query] has a first character. *)
Lemma query_has_head :
  exists a q', query = String a q'.
Proof.
  destruct query as [|a q']; [congruence|]. now exists a, q'.
Qed.

Lemma view_when_failed (f : Failure) (d : string) :
  upstream the_call = Failed f d ->
  search_pexels_images int upstream key args entry =
    (inr (Jsonified
            (JObj [("error", JStr ("Could not connect to Pexels API: " ++ d))])
            503),
     {| calls := [the_call]; response := None |}).
Proof.
  intros Hup. destruct query_has_head as (a & q' & Eq).
  unfold search_pexels_images. rewrite query_given, Eq.
  unfold try_except, bind, Requests.get. cbn [calls response entry app].
  rewrite <- Eq. fold the_call. rewrite Hup.
  destruct (failure_goes_to_second_clause f d) as [H1 H2].
  now rewrite H1, H2.
Qed.

Lemma view_when_faulted (f : Fault) (d : string) :
  upstream the_call = Faulted f d ->
  search_pexels_images int upstream key args entry =
    (inl (Raise (fault_class f) d),
     {| calls := [the_call]; response := None |}).
Proof.
  intros Hup. destruct query_has_head as (a & q' & Eq).
  unfold search_pexels_images. rewrite query_given, Eq.
  unfold try_except, bind, Requests.get. cbn [calls response entry app].
  rewrite <- Eq. fold the_call. rewrite Hup.
  destruct (fault_passes_both_clauses f d) as [H1 H2].
  now rewrite H1, H2.
Qed.

Lemma view_when_error_status (r : Response) :
  upstream the_call = Completed r ->
  400 <= status_code r < 600 ->
  search_pexels_images int upstream key args entry =
    (match json r with
     | Json v => inr (Jsonified v (status_code r))
     | NotJson _ =>
         inr (Jsonified
                (JObj [("error", JStr
                          "Received a non-JSON error response from Pexels API.");
                       ("details", JStr (text r))])
                (status_code r))
     | TooDeep msg => inl (Raise RecursionError msg)
     end,
     {| calls := [the_call]; response := Some r |}).
Proof.
  intros Hup Hst. destruct query_has_head as (a & q' & Eq).
  unfold search_pexels_images. rewrite query_given, Eq.
  unfold try_except, bind, Requests.get, store_response, load_response.
  cbn [calls response entry app].
  rewrite <- Eq. fold the_call. rewrite Hup. cbn [calls response].
  destruct (raise_for_status_raises r
              {| calls := [the_call]; response := Some r |} Hst)
    as [msg ->].
  cbn. unfold Requests.json_of.
  destruct (json r); reflexivity.
Qed.

Lemma view_when_other_status (r : Response) :
  upstream the_call = Completed r ->
  status_code r < 400 \/ 600 <= status_code r ->
  search_pexels_images int upstream key args entry =
    (match json r with
     | Json v => inr (Value v)
     | NotJson msg =>
         inr (Jsonified
                (JObj [("error", JStr
                          ("Could not connect to Pexels API: " ++ msg))])
                503)
     | TooDeep msg => inl (Raise RecursionError msg)
     end,
     {| calls := [the_call]; response := Some r |}).
Proof.
  intros Hup Hst. destruct query_has_head as (a & q' & Eq).
  unfold search_pexels_images. rewrite query_given, Eq.
  unfold try_except, bind, Requests.get, store_response, load_response.
  cbn [calls response entry app].
  rewrite <- Eq. fold the_call. rewrite Hup. cbn [calls response].
  rewrite (raise_for_status_returns r _ Hst). cbn [response].
  unfold Requests.json_of.
  destruct (json r) as [v|msg|msg]; reflexivity.
Qed.

(** Whatever the network does, a request with a query makes the one call
    [the_call]. *)
Lemma view_calls_once :
  snd (api_search int upstream key args) = [the_call].
Proof.
  unfold api_search.
  destruct (upstream the_call) as [r|f d|f d] eqn:Hup.
  - destruct (Z_lt_ge_dec (status_code r) 400) as [Hlt|Hge].
    + rewrite (view_when_other_status r Hup (or_introl Hlt)). reflexivity.
    + destruct (Z_lt_ge_dec (status_code r) 600) as [Hlt|Hge'].
      * rewrite (view_when_error_status r Hup); [reflexivity|lia].
      * rewrite (view_when_other_status r Hup); [reflexivity|right; lia].
  - rewrite (view_when_failed f d Hup). reflexivity.
  - rewrite (view_when_faulted f d Hup). reflexivity.
Qed.

End View.

(** Every request either has no usable query or has one. *)
Lemma query_cases (args : Werkzeug.MultiDict) :
  (Werkzeug.get args "query" = None \/
   Werkzeug.get args "query" = Some EmptyString) \/
  exists q, Werkzeug.get args "query" = Some q /\ q <> EmptyString.
Proof.
  destruct (Werkzeug.get args "query") as [[|a q]|].
  - left; now right.
  - right. exists (String a q). split; [reflexivity|discriminate].
  - left; now left.
Qed.

(** When the calls of a request were answered by the single outcome [o],
    the request had a query and [o] answered [search_call]. *)
Lemma answered_once int upstream key args (o : Outcome) :
  map upstream (snd (api_search int upstream key args)) = [o] ->
  exists q,
    Werkzeug.get args "query" = Some q /\ q <> EmptyString /\
    upstream
      (search_call key q (Werkzeug.get_typed args "per_page" 15 int)) = o.
Proof.
  intros H. destruct (query_cases args) as [Hno|(q & Hq & Hne)].
  - unfold api_search in H.
    rewrite (view_without_query int upstream key args Hno) in H.
    discriminate H.
  - exists q. repeat split; trivial.
    rewrite (view_calls_once int upstream key args q Hq Hne) in H.
    now injection H.
Qed.

(* ================================================================== *)
(** ** The claims *)
(* ================================================================== *)

(** C1 (as amended): for a request with a present, non-empty query whose
    upstream call completes with a status from 200 to 299 and a body that
    decodes to a JSON object or array, the caller receives that JSON
    value with status 200, whichever 2xx status the upstream used. *)
Theorem C1_success_body_returned_with_200
    int upstream key args q (r : Response) (v : JSON) :
  Werkzeug.get args "query" = Some q ->
  q <> EmptyString ->
  map upstream (snd (api_search int upstream key args)) = [Completed r] ->
  200 <= status_code r < 300 ->
  json r = Json v ->
  (exists members, v = JObj members) \/ (exists items, v = JArr items) ->
  fst (api_search int upstream key args) = JsonResponse 200 v.
Proof.
  intros Hq Hne Hans Hst Hjson Hshape.
  destruct (answered_once _ _ _ _ _ Hans) as (q' & Hq' & _ & Hup).
  assert (q' = q) by congruence. subst q'.
  unfold api_search.
  rewrite (view_when_other_status int upstream key args q Hq Hne r Hup)
    by (left; lia).
  rewrite Hjson. cbn [fst finalize_request].
  destruct Hshape as [[m ->]|[l ->]]; reflexivity.
Qed.

(** C1, the instance of the specification: upstream answers 200 with the
    body [{"photos":[]}] and the caller receives 200 with that body. *)
Lemma C1_success_body_returned_with_200_witness :
  fst (api_search ascii_int (Samples.answering Samples.no_photos)
         "secret" Samples.cats)
  = JsonResponse 200 (JObj [("photos", JArr [])]).
Proof.
  apply (C1_success_body_returned_with_200 ascii_int
           (Samples.answering Samples.no_photos) "secret" Samples.cats
           "cats" Samples.no_photos (JObj [("photos", JArr [])])).
  - reflexivity.
  - discriminate.
  - reflexivity.
  - cbn; lia.
  - reflexivity.
  - left. exists [("photos", JArr [])]. reflexivity.
Defined.

(** C1 as stated fails: upstream answers 201 with the JSON document
    [null]; the query is valid, the status is a 2xx and the body is
    JSON, but the caller receives no JSON response at all, with status
    201, with status 200 or with any other, and the status it receives
    is 500. *)
Lemma C1_counterexample_null_body :
  Werkzeug.get Samples.cats "query" = Some "cats" /\
  map (Samples.answering Samples.created_null)
    (snd (api_search ascii_int (Samples.answering Samples.created_null)
            "secret" Samples.cats))
    = [Completed Samples.created_null] /\
  200 <= status_code Samples.created_null < 300 /\
  json Samples.created_null = Json JNull /\
  (forall s,
     fst (api_search ascii_int (Samples.answering Samples.created_null)
            "secret" Samples.cats) <> JsonResponse s JNull) /\
  status_of
    (fst (api_search ascii_int (Samples.answering Samples.created_null)
            "secret" Samples.cats)) = 500.
Proof.
  repeat split; try reflexivity; try (cbn; lia).
  intros s H. vm_compute in H. discriminate H.
Qed.

(** The status of the success path is Flask's default 200 and not the
    upstream's: a 201 with an object as body reaches the caller as 200. *)
Example created_object_is_answered_200 :
  fst (api_search ascii_int
         (Samples.answering
            {| status_code := 201; text := "{}"; json := Json (JObj []) |})
         "secret" Samples.cats)
  = JsonResponse 200 (JObj []).
Proof. reflexivity. Qed.

(** C2: when the query parameter is missing or empty the caller receives
    400 with the body [{"error": "The 'query' parameter is required."}]
    and no outbound call is made. *)
Theorem C2_missing_query_is_400_without_call int upstream key args :
  Werkzeug.get args "query" = None \/
  Werkzeug.get args "query" = Some EmptyString ->
  api_search int upstream key args =
    (JsonResponse 400
       (JObj [("error", JStr "The 'query' parameter is required.")]),
     []).
Proof.
  intros H. unfold api_search.
  now rewrite (view_without_query int upstream key args H).
Qed.

Lemma C2_missing_query_is_400_without_call_witness :
  api_search ascii_int Samples.timing_out "secret" Samples.no_query =
    (JsonResponse 400
       (JObj [("error", JStr "The 'query' parameter is required.")]),
     []).
Proof.
  apply (C2_missing_query_is_400_without_call ascii_int
           Samples.timing_out "secret" Samples.no_query).
  left. reflexivity.
Defined.

(** C3 (as amended): when the upstream call completes with a status
    from 400 to 599, the caller receives that status with the decoded
    body when [response.json()] decodes it (Python's decoder also reads
    [NaN] and [Infinity]), and with the body
    [{"error": "Received a non-JSON error response from Pexels API.",
      "details": <the upstream text>}]
    when [response.json()] raises [JSONDecodeError]. *)
Theorem C3_error_body_forwarded_or_replaced
    int upstream key args (r : Response) :
  map upstream (snd (api_search int upstream key args)) = [Completed r] ->
  400 <= status_code r < 600 ->
  (forall v,
     json r = Json v ->
     fst (api_search int upstream key args) = JsonResponse (status_code r) v)
  /\
  (forall msg,
     json r = NotJson msg ->
     fst (api_search int upstream key args) =
       JsonResponse (status_code r)
         (JObj [("error", JStr
                   "Received a non-JSON error response from Pexels API.");
                ("details", JStr (text r))])).
Proof.
  intros Hans Hst.
  destruct (answered_once _ _ _ _ _ Hans) as (q & Hq & Hne & Hup).
  unfold api_search.
  rewrite (view_when_error_status int upstream key args q Hq Hne r Hup Hst).
  split; [intros v Hjson|intros msg Hjson]; now rewrite Hjson.
Qed.

(** C3 on the two examples of the specification: 500 with the text
    [oops], and 429 with a JSON body. *)
Lemma C3_error_body_forwarded_or_replaced_witness :
  (forall v,
     json Samples.oops = Json v ->
     fst (api_search ascii_int (Samples.answering Samples.oops)
            "secret" Samples.cats)
     = JsonResponse (status_code Samples.oops) v)
  /\
  (forall msg,
     json Samples.oops = NotJson msg ->
     fst (api_search ascii_int (Samples.answering Samples.oops)
            "secret" Samples.cats)
     = JsonResponse (status_code Samples.oops)
         (JObj [("error", JStr
                   "Received a non-JSON error response from Pexels API.");
                ("details", JStr (text Samples.oops))])).
Proof.
  apply (C3_error_body_forwarded_or_replaced ascii_int
           (Samples.answering Samples.oops) "secret" Samples.cats
           Samples.oops).
  - reflexivity.
  - cbn; lia.
Defined.

Example oops_is_replaced :
  fst (api_search ascii_int (Samples.answering Samples.oops)
         "secret" Samples.cats)
  = JsonResponse 500
      (JObj [("error", JStr
                "Received a non-JSON error response from Pexels API.");
             ("details", JStr "oops")]).
Proof. reflexivity. Qed.

Example rate_limit_is_forwarded :
  fst (api_search ascii_int (Samples.answering Samples.rate_limited)
         "secret" Samples.cats)
  = JsonResponse 429 (JObj [("error", JStr "rate limited")]).
Proof. reflexivity. Qed.

(** C3 as stated fails: upstream answers 502 with arrays nested 100000
    deep, a valid JSON body.  [response.json()] in the [except] clause
    ends in [RecursionError], which [except ValueError] does not catch:
    the caller receives the 500 page, and so neither the body as JSON
    nor the replacement body, under the upstream status or any other. *)
Lemma C3_counterexample_deeply_nested_body :
  map (Samples.answering Samples.deeply_nested)
    (snd (api_search ascii_int (Samples.answering Samples.deeply_nested)
            "secret" Samples.cats))
    = [Completed Samples.deeply_nested] /\
  400 <= status_code Samples.deeply_nested < 600 /\
  (forall s body,
     fst (api_search ascii_int (Samples.answering Samples.deeply_nested)
            "secret" Samples.cats) <> JsonResponse s body) /\
  status_of
    (fst (api_search ascii_int (Samples.answering Samples.deeply_nested)
            "secret" Samples.cats)) = 500.
Proof.
  repeat split; try reflexivity; try (cbn; lia).
  intros s body H. discriminate H.
Qed.

(** The body [NaN] is no JSON, yet the decoder reads it and the view
    forwards it instead of replacing it. *)
Example not_a_number_is_forwarded :
  fst (api_search ascii_int (Samples.answering Samples.not_a_number)
         "secret" Samples.cats)
  = JsonResponse 500 (JFloat "NaN").
Proof. reflexivity. Qed.

(** C4: when the outbound call fails to complete the exchange (name
    resolution, refused connection, TLS, time limit, ...), the caller
    receives 503 with the body
    [{"error": "Could not connect to Pexels API: <description>"}]; the
    message ends with the description of the failure. *)
Theorem C4_transport_failure_is_503
    int upstream key args (f : Failure) (description : string) :
  map upstream (snd (api_search int upstream key args))
    = [Failed f description] ->
  fst (api_search int upstream key args) =
    JsonResponse 503
      (JObj [("error", JStr
                ("Could not connect to Pexels API: " ++ description))]).
Proof.
  intros Hans.
  destruct (answered_once _ _ _ _ _ Hans) as (q & Hq & Hne & Hup).
  unfold api_search.
  now rewrite (view_when_failed int upstream key args q Hq Hne f
                 description Hup).
Qed.

Lemma C4_transport_failure_is_503_witness :
  fst (api_search ascii_int Samples.timing_out "secret" Samples.cats) =
    JsonResponse 503
      (JObj [("error", JStr
                ("Could not connect to Pexels API: "
                   ++ "Read timed out. (read timeout=10)"))]).
Proof.
  apply (C4_transport_failure_is_503 ascii_int Samples.timing_out
           "secret" Samples.cats ReadTimedOut).
  reflexivity.
Defined.

(** C5: for a request with a valid query, the [per_page] sent upstream is
    15 when the parameter is absent, 15 when its first value does not
    convert to an integer, and the converted integer otherwise, whatever
    that integer is (zero and negative values included). *)
Theorem C5_per_page_sent int upstream key args q :
  Werkzeug.get args "query" = Some q ->
  q <> EmptyString ->
  exists c n,
    snd (api_search int upstream key args) = [c] /\
    params c = [("query", PStr q); ("per_page", PInt n)] /\
    (Werkzeug.get args "per_page" = None -> n = 15) /\
    (forall s, Werkzeug.get args "per_page" = Some s ->
               int s = None -> n = 15) /\
    (forall s m, Werkzeug.get args "per_page" = Some s ->
                 int s = Some m -> n = m).
Proof.
  intros Hq Hne.
  exists (search_call key q (Werkzeug.get_typed args "per_page" 15 int)),
         (Werkzeug.get_typed args "per_page" 15 int).
  split; [apply (view_calls_once int upstream key args q Hq Hne)|].
  split; [reflexivity|].
  unfold Werkzeug.get_typed.
  repeat split.
  - now intros ->.
  - now intros s -> ->.
  - now intros s m -> ->.
Qed.

(** C5 on [per_page=-3]: the call carries [-3]. *)
Lemma C5_per_page_sent_witness :
  exists c n,
    snd (api_search ascii_int Samples.timing_out "secret"
           Samples.cats_minus_3) = [c] /\
    params c = [("query", PStr "cats"); ("per_page", PInt n)] /\
    (Werkzeug.get Samples.cats_minus_3 "per_page" = None -> n = 15) /\
    (forall s, Werkzeug.get Samples.cats_minus_3 "per_page" = Some s ->
               ascii_int s = None -> n = 15) /\
    (forall s m, Werkzeug.get Samples.cats_minus_3 "per_page" = Some s ->
                 ascii_int s = Some m -> n = m).
Proof.
  apply (C5_per_page_sent ascii_int Samples.timing_out "secret"
           Samples.cats_minus_3 "cats").
  - reflexivity.
  - discriminate.
Defined.

(** The page size on some query strings: negative, zero, beyond any
    plausible page, absent, and not an integer. *)
Example per_page_examples :
  map (fun a => map params
                  (snd (api_search ascii_int Samples.timing_out "secret" a)))
    [ [("query", "cats"); ("per_page", "-3")];
      [("query", "cats"); ("per_page", "0")];
      [("query", "cats"); ("per_page", "1000000")];
      [("query", "cats")];
      [("query", "cats"); ("per_page", "2.5")];
      [("query", "cats"); ("per_page", "many"); ("per_page", "7")] ]
  = [ [[("query", PStr "cats"); ("per_page", PInt (-3))]];
      [[("query", PStr "cats"); ("per_page", PInt 0)]];
      [[("query", PStr "cats"); ("per_page", PInt 1000000)]];
      [[("query", PStr "cats"); ("per_page", PInt 15)]];
      [[("query", PStr "cats"); ("per_page", PInt 15)]];
      [[("query", PStr "cats"); ("per_page", PInt 15)]] ].
Proof. reflexivity. Qed.

(** C6: when [PEXELS_API_KEY] is absent from the environment or empty,
    running the module stops with [ValueError] before the application is
    created: nothing has happened yet, so the server is not listening,
    whether or not the module is run as the main program. *)
Theorem C6_missing_key_stops_startup int environ (is_main : bool) :
  getenv environ "PEXELS_API_KEY" = None \/
  getenv environ "PEXELS_API_KEY" = Some EmptyString ->
  main_py int environ is_main =
    Crashed
      (Raise ValueError
         "A PEXELS_API_KEY environment variable is required to run this application.")
      [].
Proof.
  intros [H|H]; unfold main_py; now rewrite H.
Qed.

Lemma C6_missing_key_stops_startup_witness :
  main_py ascii_int [("PORT", "8080"); ("PEXELS_API_KEY", EmptyString)] true =
    Crashed
      (Raise ValueError
         "A PEXELS_API_KEY environment variable is required to run this application.")
      [].
Proof.
  apply (C6_missing_key_stops_startup ascii_int
           [("PORT", "8080"); ("PEXELS_API_KEY", EmptyString)] true).
  right. reflexivity.
Defined.

(** With a key the main program does reach the listening server. *)
Example startup_with_key :
  main_py ascii_int [("PEXELS_API_KEY", "secret")] true =
    Loaded "secret"
      [AppCreated "static" EmptyString;
       RouteAdded "/api/search" "search_pexels_images";
       RouteAdded "/" "serve_index";
       Listening "0.0.0.0" 5000 true].
Proof. reflexivity. Qed.

(** C7 at a failing input: the upstream answers 200 with the JSON
    document [null].  The view returns [None], Flask refuses it with
    [TypeError], and the caller receives the 500 page where the claim
    promises a JSON response. *)
Theorem C7_null_body_is_not_answered_in_json :
  search_pexels_images ascii_int (Samples.answering Samples.ok_null)
    "secret" Samples.cats entry
  = (inr (Value JNull),
     {| calls := [search_call "secret" "cats" 15];
        response := Some Samples.ok_null |}) /\
  fst (api_search ascii_int (Samples.answering Samples.ok_null)
         "secret" Samples.cats)
  = InternalServerError
      (Raise TypeError "The view function did not return a valid response.").
Proof. split; reflexivity. Qed.

(** A JSON string as body does not come back as JSON either: Flask sends
    the text as an HTML document. *)
Example string_body_is_answered_as_html :
  fst (api_search ascii_int
         (Samples.answering
            {| status_code := 200;
               text := Samples.dquote ++ "hello" ++ Samples.dquote;
               json := Json (JStr "hello") |})
         "secret" Samples.cats)
  = HtmlResponse 200 "hello".
Proof. reflexivity. Qed.

(** The response depends on the key only through what [requests.get]
    makes of the call: two runs of one request whose calls end alike
    give the same response. *)
Lemma same_outcome_same_response
    int (up1 up2 : Upstream) (key1 key2 : string) args :
  map up1 (snd (api_search int up1 key1 args))
    = map up2 (snd (api_search int up2 key2 args)) ->
  fst (api_search int up1 key1 args) = fst (api_search int up2 key2 args).
Proof.
  intros Hsame.
  destruct (query_cases args) as [Hno|(q & Hq & Hne)].
  - unfold api_search.
    now rewrite !(view_without_query int _ _ args Hno).
  - rewrite (view_calls_once int up1 key1 args q Hq Hne) in Hsame.
    rewrite (view_calls_once int up2 key2 args q Hq Hne) in Hsame.
    cbn [map] in Hsame. injection Hsame as Hsame.
    unfold api_search.
    destruct (up1 (search_call key1 q _)) as [r|f d|f d] eqn:H1;
      symmetry in Hsame.
    + assert (400 <= status_code r < 600 \/
              (status_code r < 400 \/ 600 <= status_code r)) as [Hst|Hst]
        by lia.
      * now rewrite
          (view_when_error_status int up1 key1 args q Hq Hne r H1 Hst),
          (view_when_error_status int up2 key2 args q Hq Hne r Hsame Hst).
      * now rewrite
          (view_when_other_status int up1 key1 args q Hq Hne r H1 Hst),
          (view_when_other_status int up2 key2 args q Hq Hne r Hsame Hst).
    + now rewrite
        (view_when_failed int up1 key1 args q Hq Hne f d H1),
        (view_when_failed int up2 key2 args q Hq Hne f d Hsame).
    + now rewrite
        (view_when_faulted int up1 key1 args q Hq Hne f d H1),
        (view_when_faulted int up2 key2 args q Hq Hne f d Hsame).
Qed.

(** C8 at a failing input: the key [ secret], with a space in front.
    The start-up accepts it, since it is not empty.  requests refuses it
    as a header value with an [InvalidHeader] whose message quotes the
    value; the second [except] clause copies the message into the 503
    body, and the key reaches the caller.  Under another such key the
    same request over the same network is answered differently. *)
Theorem C8_key_with_leading_space_reaches_caller :
  main_py ascii_int Samples.env_spaced_key false
    = Loaded " secret"
        [AppCreated "static" EmptyString;
         RouteAdded "/api/search" "search_pexels_images";
         RouteAdded "/" "serve_index"] /\
  fst (api_search ascii_int (Requests.send Samples.timing_out)
         " secret" Samples.cats)
    = JsonResponse 503
        (JObj [("error", JStr
                  "Could not connect to Pexels API: Invalid leading whitespace, reserved character(s), or return character(s) in header value: ' secret'")]) /\
  fst (api_search ascii_int (Requests.send Samples.timing_out)
         " secret" Samples.cats)
    <> fst (api_search ascii_int (Requests.send Samples.timing_out)
              " hidden" Samples.cats).
Proof.
  repeat split; try reflexivity.
  intros H. vm_compute in H. discriminate H.
Qed.

(** An ordinary key passes requests' checks and the network decides. *)
Example ordinary_key_is_sent :
  fst (api_search ascii_int
         (Requests.send (Samples.answering Samples.no_photos))
         "secret" Samples.cats)
  = JsonResponse 200 (JObj [("photos", JArr [])]).
Proof. reflexivity. Qed.

(** A key outside Latin-1 cannot be written as a header:
    [UnicodeEncodeError] leaves [requests.get], passes both [except]
    clauses and ends in the 500 page. *)
Example key_outside_latin1_is_a_500 :
  fst (api_search ascii_int
         (Requests.send (Samples.answering Samples.no_photos))
         Samples.euro_key Samples.cats)
  = InternalServerError
      (Raise UnicodeEncodeError
         "'latin-1' codec can't encode characters: ordinal not in range(256)").
Proof. reflexivity. Qed.

(** C9: a request with a valid query makes exactly one outbound call,
    whatever its outcome: a GET to the search endpoint with the key as
    [Authorization] header, the query and the resolved page size as
    parameters, and a time limit of 10 seconds. *)
Theorem C9_exactly_one_outbound_get int upstream key args q :
  Werkzeug.get args "query" = Some q ->
  q <> EmptyString ->
  snd (api_search int upstream key args) =
    [ {| method := GET;
         url := "https://api.pexels.com/v1/search";
         headers := [("Authorization", key)];
         params :=
           [("query", PStr q);
            ("per_page",
             PInt (Werkzeug.get_typed args "per_page" 15 int))];
         timeout := 10 |} ].
Proof.
  intros Hq Hne. apply (view_calls_once int upstream key args q Hq Hne).
Qed.

Lemma C9_exactly_one_outbound_get_witness :
  snd (api_search ascii_int Samples.timing_out "secret"
         Samples.cats_minus_3) =
    [ {| method := GET;
         url := "https://api.pexels.com/v1/search";
         headers := [("Authorization", "secret")];
         params :=
           [("query", PStr "cats");
            ("per_page",
             PInt (Werkzeug.get_typed Samples.cats_minus_3 "per_page" 15
                     ascii_int))];
         timeout := 10 |} ].
Proof.
  apply (C9_exactly_one_outbound_get ascii_int Samples.timing_out "secret"
           Samples.cats_minus_3 "cats").
  - reflexivity.
  - discriminate.
Defined.

(** C10 (as amended): when the upstream call completes with a status
    from 300 to 399, [raise_for_status] returns without raising, so the
    view stays on the success path; the caller never receives that 3xx
    status; and when the body decodes to a JSON object or array the
    caller receives it with status 200. *)
Theorem C10_redirect_status_takes_success_path
    int upstream key args (r : Response) :
  map upstream (snd (api_search int upstream key args)) = [Completed r] ->
  300 <= status_code r < 400 ->
  (forall fr, Requests.raise_for_status r fr = (inr tt, fr)) /\
  status_of (fst (api_search int upstream key args)) <> status_code r /\
  (forall v,
     json r = Json v ->
     (exists members, v = JObj members) \/ (exists items, v = JArr items) ->
     fst (api_search int upstream key args) = JsonResponse 200 v).
Proof.
  intros Hans Hst.
  destruct (answered_once _ _ _ _ _ Hans) as (q & Hq & Hne & Hup).
  split; [intros fr; apply raise_for_status_returns; lia|].
  unfold api_search.
  rewrite (view_when_other_status int upstream key args q Hq Hne r Hup)
    by (left; lia).
  cbn [fst]. split.
  - destruct (json r) as [[| | | | | |]|msg|msg]; cbn; lia.
  - intros v -> [[m ->]|[l ->]]; reflexivity.
Qed.

(** C10 on a 302 whose body is a JSON object. *)
Lemma C10_redirect_status_takes_success_path_witness :
  (forall fr, Requests.raise_for_status Samples.found fr = (inr tt, fr)) /\
  status_of
    (fst (api_search ascii_int (Samples.answering Samples.found) "secret"
            Samples.cats))
    <> status_code Samples.found /\
  (forall v,
     json Samples.found = Json v ->
     (exists members, v = JObj members) \/ (exists items, v = JArr items) ->
     fst (api_search ascii_int (Samples.answering Samples.found) "secret"
            Samples.cats) = JsonResponse 200 v).
Proof.
  apply (C10_redirect_status_takes_success_path ascii_int
           (Samples.answering Samples.found) "secret" Samples.cats
           Samples.found).
  - reflexivity.
  - cbn; lia.
Defined.

(** C10 as stated fails on its own example: a 304 has no body, nothing
    decodes, and the caller receives 503 with the decoder's message
    instead of a result with status 200. *)
Lemma C10_counterexample_not_modified :
  map (Samples.answering Samples.not_modified)
    (snd (api_search ascii_int (Samples.answering Samples.not_modified)
            "secret" Samples.cats))
    = [Completed Samples.not_modified] /\
  300 <= status_code Samples.not_modified < 400 /\
  fst (api_search ascii_int (Samples.answering Samples.not_modified)
         "secret" Samples.cats)
    = JsonResponse 503
        (JObj [("error", JStr
                  ("Could not connect to Pexels API: "
                     ++ "Expecting value: line 1 column 1 (char 0)"))]) /\
  (forall body,
     fst (api_search ascii_int (Samples.answering Samples.not_modified)
            "secret" Samples.cats) <> JsonResponse 200 body).
Proof.
  repeat split; try reflexivity; try (cbn; lia).
  intros body H. vm_compute in H. discriminate H.
Qed.

(* ================================================================== *)
(** ** Further properties of the view *)
(* ================================================================== *)

(** The ways a request to [/api/search] can go, each with the outcome
    of the call behind it and the response that results. *)
Lemma api_search_cases int upstream key args :
  api_search int upstream key args =
    (JsonResponse 400
       (JObj [("error", JStr "The 'query' parameter is required.")]), [])
  \/
  (exists f d,
     map upstream (snd (api_search int upstream key args)) = [Failed f d] /\
     fst (api_search int upstream key args) =
       JsonResponse 503
         (JObj [("error", JStr ("Could not connect to Pexels API: " ++ d))]))
  \/
  (exists f d,
     map upstream (snd (api_search int upstream key args)) = [Faulted f d] /\
     fst (api_search int upstream key args) =
       InternalServerError (Raise (fault_class f) d))
  \/
  (exists r,
     map upstream (snd (api_search int upstream key args)) = [Completed r] /\
     400 <= status_code r < 600 /\
     fst (api_search int upstream key args) =
       match json r with
       | Json v => JsonResponse (status_code r) v
       | NotJson _ =>
           JsonResponse (status_code r)
             (JObj [("error", JStr
                       "Received a non-JSON error response from Pexels API.");
                    ("details", JStr (text r))])
       | TooDeep msg => InternalServerError (Raise RecursionError msg)
       end)
  \/
  (exists r,
     map upstream (snd (api_search int upstream key args)) = [Completed r] /\
     (status_code r < 400 \/ 600 <= status_code r) /\
     fst (api_search int upstream key args) =
       match json r with
       | Json v => finalize_request (inr (Value v))
       | NotJson msg =>
           JsonResponse 503
             (JObj [("error", JStr
                       ("Could not connect to Pexels API: " ++ msg))])
       | TooDeep msg => InternalServerError (Raise RecursionError msg)
       end).
Proof.
  destruct (query_cases args) as [Hno|(q & Hq & Hne)].
  - left. unfold api_search.
    now rewrite (view_without_query int upstream key args Hno).
  - right.
    pose proof (view_calls_once int upstream key args q Hq Hne) as Hcalls.
    rewrite Hcalls. cbn [map].
    destruct (upstream
                (search_call key q
                   (Werkzeug.get_typed args "per_page" 15 int)))
      as [r|f d|f d] eqn:Hup.
    + do 2 right.
      assert (400 <= status_code r < 600 \/
              (status_code r < 400 \/ 600 <= status_code r)) as [Hst|Hst]
        by lia.
      * left. exists r. repeat split; try easy.
        unfold api_search.
        rewrite (view_when_error_status int upstream key args q Hq Hne
                   r Hup Hst).
        now destruct (json r).
      * right. exists r. repeat split; try easy.
        unfold api_search.
        rewrite (view_when_other_status int upstream key args q Hq Hne
                   r Hup Hst).
        now destruct (json r).
    + left. exists f, d. split; [reflexivity|].
      unfold api_search.
      now rewrite (view_when_failed int upstream key args q Hq Hne f d Hup).
    + right; left. exists f, d. split; [reflexivity|].
      unfold api_search.
      now rewrite (view_when_faulted int upstream key args q Hq Hne f d Hup).
Qed.

(** X1: the two [except] clauses are complete for what requests itself
    raises.  When the call completes or fails with one of requests' own
    exceptions, and [response.json()] returns or raises
    [JSONDecodeError], the view returns a value: no [HTTPError] and no
    other [RequestException] passes the clauses, and [response] is never
    read before it is assigned. *)
Theorem X1_view_returns_on_requests_outcomes int upstream key args :
  Forall (fun o =>
            match o with
            | Completed r => forall msg, json r <> TooDeep msg
            | Failed _ _ => True
            | Faulted _ _ => False
            end)
    (map upstream (snd (api_search int upstream key args))) ->
  exists rv fr,
    search_pexels_images int upstream key args entry = (inr rv, fr) /\
    (response fr = None \/
     exists r, response fr = Some r /\ map upstream (calls fr) = [Completed r]).
Proof.
  intros Hok.
  destruct (query_cases args) as [Hno|(q & Hq & Hne)].
  - rewrite (view_without_query int upstream key args Hno).
    eexists _, _. split; [reflexivity|now left].
  - rewrite (view_calls_once int upstream key args q Hq Hne) in Hok.
    cbn [map] in Hok. apply Forall_inv in Hok.
    destruct (upstream
                (search_call key q
                   (Werkzeug.get_typed args "per_page" 15 int)))
      as [r|f d|f d] eqn:Hup; [| |contradiction].
    + assert (400 <= status_code r < 600 \/
              (status_code r < 400 \/ 600 <= status_code r)) as [Hst|Hst]
        by lia.
      * rewrite (view_when_error_status int upstream key args q Hq Hne r
                   Hup Hst).
        destruct (json r) as [v|msg|msg] eqn:Hjson;
          [| |now destruct (Hok msg)];
          (eexists _, _; split; [reflexivity|right];
           exists r; cbn; now rewrite Hup).
      * rewrite (view_when_other_status int upstream key args q Hq Hne r
                   Hup Hst).
        destruct (json r) as [v|msg|msg] eqn:Hjson;
          [| |now destruct (Hok msg)];
          (eexists _, _; split; [reflexivity|right];
           exists r; cbn; now rewrite Hup).
    + rewrite (view_when_failed int upstream key args q Hq Hne f d Hup).
      eexists _, _. split; [reflexivity|now left].
Qed.

Lemma X1_view_returns_on_requests_outcomes_witness :
  exists rv fr,
    search_pexels_images ascii_int (Samples.answering Samples.oops)
      "secret" Samples.cats entry = (inr rv, fr) /\
    (response fr = None \/
     exists r,
       response fr = Some r /\
       map (Samples.answering Samples.oops) (calls fr) = [Completed r]).
Proof.
  apply (X1_view_returns_on_requests_outcomes ascii_int
           (Samples.answering Samples.oops) "secret" Samples.cats).
  repeat constructor. discriminate.
Defined.

(** X2: under the same condition (the call completes or fails with one
    of requests' own exceptions, and [response.json()] returns or raises
    [JSONDecodeError]) the caller receives a JSON response, except in
    one situation: the call completed with a status outside 400..599
    and a body that decodes to a JSON value that is neither an object
    nor an array; then the response is not JSON. *)
Theorem X2_json_response_except_scalar_success int upstream key args :
  Forall (fun o =>
            match o with
            | Completed r => forall msg, json r <> TooDeep msg
            | Failed _ _ => True
            | Faulted _ _ => False
            end)
    (map upstream (snd (api_search int upstream key args))) ->
  (exists s body,
     fst (api_search int upstream key args) = JsonResponse s body)
  \/
  (exists r v,
     map upstream (snd (api_search int upstream key args)) = [Completed r] /\
     (status_code r < 400 \/ 600 <= status_code r) /\
     json r = Json v /\
     (forall members, v <> JObj members) /\
     (forall items, v <> JArr items) /\
     forall s body,
       fst (api_search int upstream key args) <> JsonResponse s body).
Proof.
  intros Hok.
  destruct (api_search_cases int upstream key args)
    as [H|[(f & d & _ & H)|[(f & d & Hans & _)
       |[(r & Hans & _ & H)|(r & Hans & Hst & H)]]]].
  - left. rewrite H. now eexists _, _.
  - left. rewrite H. now eexists _, _.
  - rewrite Hans in Hok. apply Forall_inv in Hok. contradiction.
  - pose proof Hok as Hok'. rewrite Hans in Hok'. apply Forall_inv in Hok'.
    left. rewrite H.
    destruct (json r) as [v|msg|msg]; [| |now destruct (Hok' msg)];
      now eexists _, _.
  - pose proof Hok as Hok'. rewrite Hans in Hok'. apply Forall_inv in Hok'.
    rewrite H.
    destruct (json r) as [v|msg|msg] eqn:Hjson;
      [|left; now eexists _, _|now destruct (Hok' msg)].
    destruct v; try (left; cbn; now eexists _, _);
      right;
      match type of Hjson with _ = Json ?w => exists r, w end;
      repeat split; trivial; discriminate.
Qed.

Lemma X2_json_response_except_scalar_success_witness :
  (exists s body,
     fst (api_search ascii_int (Samples.answering Samples.ok_null)
            "secret" Samples.cats) = JsonResponse s body)
  \/
  (exists r v,
     map (Samples.answering Samples.ok_null)
       (snd (api_search ascii_int (Samples.answering Samples.ok_null)
               "secret" Samples.cats)) = [Completed r] /\
     (status_code r < 400 \/ 600 <= status_code r) /\
     json r = Json v /\
     (forall members, v <> JObj members) /\
     (forall items, v <> JArr items) /\
     forall s body,
       fst (api_search ascii_int (Samples.answering Samples.ok_null)
              "secret" Samples.cats) <> JsonResponse s body).
Proof.
  apply (X2_json_response_except_scalar_success ascii_int
           (Samples.answering Samples.ok_null) "secret" Samples.cats).
  repeat constructor. discriminate.
Defined.

(** X3: whatever the request and the outcome, the status the caller
    receives is 200 or lies between 400 and 599; the proxy never answers
    with a 1xx, a 3xx or a 2xx other than 200. *)
Theorem X3_status_is_200_or_error int upstream key args :
  status_of (fst (api_search int upstream key args)) = 200 \/
  400 <= status_of (fst (api_search int upstream key args)) < 600.
Proof.
  destruct (api_search_cases int upstream key args)
    as [H|[(f & d & _ & H)|[(f & d & _ & H)
       |[(r & _ & Hst & H)|(r & _ & _ & H)]]]];
    rewrite H; cbn [fst status_of]; try lia.
  - destruct (json r); cbn; lia.
  - destruct (json r) as [[| | | | | |]|msg|msg]; cbn; lia.
Qed.

(** X4: a completed call whose status is outside 400..599 and whose body
    is not JSON is reported as a connection problem: the caller receives
    503 with [Could not connect to Pexels API: ] followed by the
    decoder's message, although the exchange did complete. *)
Theorem X4_undecodable_success_is_503
    int upstream key args (r : Response) (msg : string) :
  map upstream (snd (api_search int upstream key args)) = [Completed r] ->
  status_code r < 400 \/ 600 <= status_code r ->
  json r = NotJson msg ->
  fst (api_search int upstream key args) =
    JsonResponse 503
      (JObj [("error", JStr ("Could not connect to Pexels API: " ++ msg))]).
Proof.
  intros Hans Hst Hjson.
  destruct (answered_once _ _ _ _ _ Hans) as (q & Hq & Hne & Hup).
  unfold api_search.
  rewrite (view_when_other_status int upstream key args q Hq Hne r Hup Hst).
  now rewrite Hjson.
Qed.

(** X4 on a 200 whose body is an HTML page. *)
Lemma X4_undecodable_success_is_503_witness :
  fst (api_search ascii_int (Samples.answering Samples.html_page)
         "secret" Samples.cats) =
    JsonResponse 503
      (JObj [("error", JStr
                ("Could not connect to Pexels API: "
                   ++ "Expecting value: line 1 column 1 (char 0)"))]).
Proof.
  apply (X4_undecodable_success_is_503 ascii_int
           (Samples.answering Samples.html_page) "secret" Samples.cats
           Samples.html_page).
  - reflexivity.
  - left. cbn. lia.
  - reflexivity.
Defined.

(** X5: only the statuses 400 to 599 count as upstream errors.  A call
    that completes with any other status, a 1xx or a status from 600 on
    included, is treated like a success, and the caller receives status
    200 with the JSON value when the body decodes to an object or an
    array, status 200 with an HTML document when it decodes to a string
    (the string is the document), and the 500 page, from a [TypeError],
    when it decodes to [null], a boolean or a number. *)
Theorem X5_success_path_by_body
    int upstream key args (r : Response) (v : JSON) :
  map upstream (snd (api_search int upstream key args)) = [Completed r] ->
  status_code r < 400 \/ 600 <= status_code r ->
  json r = Json v ->
  match v with
  | JObj _ | JArr _ =>
      fst (api_search int upstream key args) = JsonResponse 200 v
  | JStr s =>
      fst (api_search int upstream key args) = HtmlResponse 200 s
  | JNull | JBool _ | JInt _ | JFloat _ =>
      exists msg,
        fst (api_search int upstream key args)
          = InternalServerError (Raise TypeError msg)
  end.
Proof.
  intros Hans Hst Hjson.
  destruct (answered_once _ _ _ _ _ Hans) as (q & Hq & Hne & Hup).
  unfold api_search.
  rewrite (view_when_other_status int upstream key args q Hq Hne r Hup Hst).
  rewrite Hjson. cbn [fst finalize_request].
  destruct v; cbn; try reflexivity; now eexists.
Qed.

(** X5 on the status 600 with an object as body. *)
Lemma X5_success_path_by_body_witness :
  fst (api_search ascii_int (Samples.answering Samples.status_600)
         "secret" Samples.cats)
  = JsonResponse 200 (JObj [("photos", JArr [])]).
Proof.
  apply (X5_success_path_by_body ascii_int
           (Samples.answering Samples.status_600) "secret" Samples.cats
           Samples.status_600 (JObj [("photos", JArr [])])).
  - reflexivity.
  - right. cbn. lia.
  - reflexivity.
Defined.

(* ------------------------------------------------------------------ *)
(** *** Which parameters of the request count *)
(* ------------------------------------------------------------------ *)

(** Dropping pairs of other keys does not change what [get] finds. *)
Lemma get_filter (keep : string -> bool) (d : Werkzeug.MultiDict) k :
  keep k = true ->
  Werkzeug.get (filter (fun p => keep (fst p)) d) k = Werkzeug.get d k.
Proof.
  intros Hk. induction d as [|[k' v] d IH]; [reflexivity|].
  cbn [filter fst Werkzeug.get].
  destruct (keep k') eqn:Hk'.
  - cbn [Werkzeug.get]. now rewrite IH.
  - destruct (String.eqb_spec k' k) as [->|_]; [congruence|exact IH].
Qed.

(** [get] on two query strings put one after the other. *)
Lemma get_app (d1 d2 : Werkzeug.MultiDict) k :
  Werkzeug.get (d1 ++ d2)%list k =
    match Werkzeug.get d1 k with
    | Some v => Some v
    | None => Werkzeug.get d2 k
    end.
Proof.
  induction d1 as [|[k' v] d1 IH]; [reflexivity|].
  cbn [app Werkzeug.get]. now destruct (String.eqb k' k).
Qed.

(** The view reads two values of the request and nothing else. *)
Lemma view_reads_two_values int upstream key (a1 a2 : Werkzeug.MultiDict) :
  Werkzeug.get a1 "query" = Werkzeug.get a2 "query" ->
  Werkzeug.get a1 "per_page" = Werkzeug.get a2 "per_page" ->
  api_search int upstream key a1 = api_search int upstream key a2.
Proof.
  intros Hq Hp.
  unfold api_search, search_pexels_images, Werkzeug.get_typed.
  now rewrite Hq, Hp.
Qed.

(** X6: parameters other than [query] and [per_page] are ignored.
    Removing every other pair from the query string changes neither the
    response nor the outbound call: [page], [orientation] and the like
    are never forwarded to the upstream. *)
Theorem X6_other_parameters_ignored int upstream key args :
  api_search int upstream key
    (filter (fun p => String.eqb (fst p) "query"
                      || String.eqb (fst p) "per_page") args)
  = api_search int upstream key args.
Proof.
  apply view_reads_two_values;
    apply (get_filter
             (fun k => String.eqb k "query" || String.eqb k "per_page"));
    reflexivity.
Qed.

(** X7: of a repeated parameter the first value counts.  Once a query
    string holds a [query] and a [per_page], whatever follows it, further
    values of these two included, changes neither the response nor the
    outbound call. *)
Theorem X7_first_values_win int upstream key (args more : Werkzeug.MultiDict) :
  Werkzeug.get args "query" <> None ->
  Werkzeug.get args "per_page" <> None ->
  api_search int upstream key (args ++ more)%list
  = api_search int upstream key args.
Proof.
  intros Hq Hp. apply view_reads_two_values; rewrite get_app.
  - now destruct (Werkzeug.get args "query").
  - now destruct (Werkzeug.get args "per_page").
Qed.

Lemma X7_first_values_win_witness :
  api_search ascii_int Samples.timing_out "secret"
    (Samples.cats_5 ++ Samples.more_params)%list
  = api_search ascii_int Samples.timing_out "secret" Samples.cats_5.
Proof.
  apply (X7_first_values_win ascii_int Samples.timing_out "secret"
           Samples.cats_5 Samples.more_params); discriminate.
Defined.

(* ================================================================== *)
(** ** Further properties of the start-up *)
(* ================================================================== *)

(** What [Loaded] tells about the environment. *)
Lemma loaded_key_in_environ
    int environ (is_main : bool) (key : string) (done : list Event) :
  main_py int environ is_main = Loaded key done ->
  getenv environ "PEXELS_API_KEY" = Some key /\ key <> EmptyString.
Proof.
  unfold main_py.
  destruct (getenv environ "PEXELS_API_KEY") as [[|a k]|];
    [discriminate| |discriminate].
  destruct is_main.
  - destruct (getenv environ "PORT") as [p|];
      [destruct (int p) as [n|];
       [destruct ((0 <=? n) && (n <=? 65535))|]|];
      intros H; inversion H; now split.
  - intros H; inversion H; now split.
Qed.

(** X8: a module that finished loading holds a usable key: the key is
    the value of [PEXELS_API_KEY] in the environment, unchanged, and it
    is not empty.  The application never exists without a key. *)
Theorem X8_loaded_key_is_the_environments
    int environ (is_main : bool) (key : string) (done : list Event) :
  main_py int environ is_main = Loaded key done ->
  getenv environ "PEXELS_API_KEY" = Some key /\ key <> EmptyString.
Proof.
  intros Hload.
  exact (loaded_key_in_environ int environ is_main key done Hload).
Qed.

Lemma X8_loaded_key_is_the_environments_witness :
  getenv Samples.env_8080 "PEXELS_API_KEY" = Some "secret" /\
  "secret" <> EmptyString.
Proof.
  apply (X8_loaded_key_is_the_environments ascii_int Samples.env_8080 true
           "secret"
           [AppCreated "static" EmptyString;
            RouteAdded "/api/search" "search_pexels_images";
            RouteAdded "/" "serve_index";
            Listening "0.0.0.0" 8080 true]).
  reflexivity.
Defined.

(** X9: when the server listens.  It listens only when the module runs
    as the main program, the key is present and not empty, and the port
    resolves: to 5000 without [PORT], to the integer [PORT] holds
    otherwise.  It then listens on [0.0.0.0] in debug mode, the
    application and both routes were set up before, and the run is one
    that ended well; such a run, conversely, listens. *)
Theorem X9_listening_exactly_when int environ (is_main : bool) host port debug :
  In (Listening host port debug) (events (main_py int environ is_main))
  <->
  is_main = true /\ host = "0.0.0.0" /\ debug = true /\
  match getenv environ "PORT" with
  | None => port = 5000
  | Some p => int p = Some port
  end /\
  exists key,
    getenv environ "PEXELS_API_KEY" = Some key /\ key <> EmptyString /\
    main_py int environ is_main =
      Loaded key
        [AppCreated "static" EmptyString;
         RouteAdded "/api/search" "search_pexels_images";
         RouteAdded "/" "serve_index";
         Listening host port debug].
Proof.
  unfold main_py. split.
  - destruct (getenv environ "PEXELS_API_KEY") as [[|a k]|];
      [intros []| |intros []].
    destruct is_main.
    + destruct (getenv environ "PORT") as [p|];
        [destruct (int p) as [n|] eqn:Hp;
         [destruct ((0 <=? n) && (n <=? 65535))|]|]; cbn;
        intros H; repeat (destruct H as [H|H]; try discriminate H);
        try contradiction;
        inversion H; subst; repeat split; trivial;
        exists (String a k); repeat split; discriminate.
    + cbn. intros H.
      repeat (destruct H as [H|H]; try discriminate H). contradiction.
  - intros (-> & -> & -> & Hport & key & Hkey & Hne & Hrun).
    rewrite Hrun. cbn. tauto.
Qed.

(** X10: a [PORT] that is not an integer stops the main program, and
    only the main program.  With a key in place, running the module as
    the main program ends in [ValueError] after the application and the
    routes were set up, and the server does not listen; importing the
    module never reads [PORT] and loads. *)
Theorem X10_port_not_an_integer
    int environ (key p : string) :
  getenv environ "PEXELS_API_KEY" = Some key ->
  key <> EmptyString ->
  getenv environ "PORT" = Some p ->
  int p = None ->
  (exists msg,
     main_py int environ true =
       Crashed (Raise ValueError msg)
         [AppCreated "static" EmptyString;
          RouteAdded "/api/search" "search_pexels_images";
          RouteAdded "/" "serve_index"]) /\
  main_py int environ false =
    Loaded key
      [AppCreated "static" EmptyString;
       RouteAdded "/api/search" "search_pexels_images";
       RouteAdded "/" "serve_index"].
Proof.
  intros Hkey Hne Hport Hint. unfold main_py. rewrite Hkey, Hport, Hint.
  destruct key as [|a k]; [congruence|].
  split; [now eexists|reflexivity].
Qed.

Lemma X10_port_not_an_integer_witness :
  (exists msg,
     main_py ascii_int Samples.env_port_http true =
       Crashed (Raise ValueError msg)
         [AppCreated "static" EmptyString;
          RouteAdded "/api/search" "search_pexels_images";
          RouteAdded "/" "serve_index"]) /\
  main_py ascii_int Samples.env_port_http false =
    Loaded "secret"
      [AppCreated "static" EmptyString;
       RouteAdded "/api/search" "search_pexels_images";
       RouteAdded "/" "serve_index"].
Proof.
  apply (X10_port_not_an_integer ascii_int Samples.env_port_http
           "secret" "http").
  - reflexivity.
  - discriminate.
  - reflexivity.
  - reflexivity.
Defined.



(** X12: start-up and view together.  When the module has loaded with
    its key, a request with a valid query makes one call, and the only
    header of that call is [Authorization] with the value that
    [PEXELS_API_KEY] has in the environment, which is not empty. *)
Theorem X12_calls_carry_the_environments_key
    int environ (is_main : bool) (key : string) (done : list Event)
    upstream args q :
  main_py int environ is_main = Loaded key done ->
  Werkzeug.get args "query" = Some q ->
  q <> EmptyString ->
  exists c v,
    snd (api_search int upstream key args) = [c] /\
    headers c = [("Authorization", v)] /\
    getenv environ "PEXELS_API_KEY" = Some v /\
    v <> EmptyString.
Proof.
  intros Hload Hq Hne.
  destruct (loaded_key_in_environ int environ is_main key done Hload)
    as [Henv Hkey].
  exists (search_call key q (Werkzeug.get_typed args "per_page" 15 int)), key.
  split; [apply (view_calls_once int upstream key args q Hq Hne)|].
  now repeat split.
Qed.

Lemma X12_calls_carry_the_environments_key_witness :
  exists c v,
    snd (api_search ascii_int Samples.timing_out "secret" Samples.cats_5)
      = [c] /\
    headers c = [("Authorization", v)] /\
    getenv Samples.env_8080 "PEXELS_API_KEY" = Some v /\
    v <> EmptyString.
Proof.
  apply (X12_calls_carry_the_environments_key ascii_int Samples.env_8080
           true "secret"
           [AppCreated "static" EmptyString;
            RouteAdded "/api/search" "search_pexels_images";
            RouteAdded "/" "serve_index";
            Listening "0.0.0.0" 8080 true]
           Samples.timing_out Samples.cats_5 "cats").
  - reflexivity.
  - reflexivity.
  - discriminate.
Defined.
